(** * timecapsule: a shallow embedding of the capsule store engine

    Sources: [timecapsule.go] (MemoryTimeCapsule, the in-memory store and
    WaitForUnlock) and [storage.go] (PersistentTimeCapsule, the store that
    delegates to a [Storage] backend through a [Codec]).

    Modelling conventions.
    - [time.Time] is an instant in nanoseconds, [Time := Z]; [time.Duration]
      is a signed nanosecond count, [Duration := Z]; [t.Add d] is [t + d]
      and [t.Before u] is [t < u].  The overflow of Go's 64-bit wall clock
      (hundreds of billions of years away) is not modelled.
    - Every [time.Now()] call of a function is an explicit argument, so
      the clock reading of each call is visible in the statements.
    - [ctx.Err()] is a [Ctx := option CtxErr]: [None] is a live context,
      [Some e] one that is already cancelled or past its deadline.  In a
      synchronous operation every [ctx.Err()] reads the same value; the
      blocking [WaitForUnlock] observes the context afresh at each step.
    - Go's [(zero, err)] returns are [Err err]; the zero value carries no
      information and is dropped.
    - The map [map[string]Capsule[T]] is a [gmap string (Capsule T)];
      every operation returns the map it leaves behind, also the
      read-only ones, so that their frame is a statement. *)

From stdpp Require Import base gmap strings list.

(** ** Time, contexts and errors *)

Definition Time := Z.
Definition Duration := Z.

(** [t.Before(u)] *)
Definition Before (t u : Time) : bool := Z.ltb t u.

(** [t.Add(d)] *)
Definition Add (t : Time) (d : Duration) : Time := (t + d)%Z.

(** The two errors [ctx.Err()] can return. *)
Inductive CtxErr := Canceled | DeadlineExceeded.

(** The value of [ctx.Err()] when it is read. *)
Definition Ctx := option CtxErr.

(** The error kinds: the three sentinels of timecapsule.go, a context
    error, and an opaque codec or backend error. *)
Inductive Error :=
  | ErrCapsuleNotFound
  | ErrCapsuleLocked
  | ErrInvalidKey
  | ErrContext (e : CtxErr)
  | ErrOpaque (code : nat).

#[global] Instance CtxErr_eq_dec : EqDecision CtxErr.
Proof. solve_decision. Defined.
#[global] Instance Error_eq_dec : EqDecision Error.
Proof. solve_decision. Defined.

(** A Go [(A, error)] return. *)
Inductive Result (A : Type) :=
  | Ok (a : A)
  | Err (e : Error).
Arguments Ok {A} a.
Arguments Err {A} e.

(** A Go [error] return: [None] is [nil]. *)
Definition GoError := option Error.

(** ** Records *)

(** [Capsule[T]] *)
Record Capsule (T : Type) := MkCapsule {
  Value : T;
  UnlockTime : Time;
  CreatedAt : Time
}.
Arguments MkCapsule {T} Value UnlockTime CreatedAt.
Arguments Value {T} c.
Arguments UnlockTime {T} c.
Arguments CreatedAt {T} c.

(** [Metadata]: no field holds the value. *)
Record Metadata := MkMetadata {
  MUnlockTime : Time;
  MCreatedAt : Time;
  IsLocked : bool
}.

(** ** MemoryTimeCapsule (timecapsule.go) *)

Module Memory.
Section Memory.
Context {T : Type}.

(** [Store]: [now] is the [time.Now()] read for [CreatedAt]. *)
Definition Store (ctx : Ctx) (now : Time) (key : string) (value : T)
    (unlockTime : Time) (m : gmap string (Capsule T)) : GoError * gmap string (Capsule T) :=
  match ctx with
  | Some e => (Some (ErrContext e), m)
  | None =>
      if decide (key = "") then (Some ErrInvalidKey, m)
      else
        let capsule := MkCapsule value unlockTime now in
        (None, <[key := capsule]> m)
  end.

(** [Open]: [now] is the [time.Now()] of the lock test. *)
Definition Open (ctx : Ctx) (now : Time) (key : string) (m : gmap string (Capsule T))
    : Result T * gmap string (Capsule T) :=
  match ctx with
  | Some e => (Err (ErrContext e), m)
  | None =>
      if decide (key = "") then (Err ErrInvalidKey, m)
      else
        match m !! key with
        | None => (Err ErrCapsuleNotFound, m)
        | Some capsule =>
            if Before now (UnlockTime capsule) then (Err ErrCapsuleLocked, m)
            else (Ok (Value capsule), m)
        end
  end.

(** [Peek] *)
Definition Peek (ctx : Ctx) (now : Time) (key : string) (m : gmap string (Capsule T))
    : Result Metadata * gmap string (Capsule T) :=
  match ctx with
  | Some e => (Err (ErrContext e), m)
  | None =>
      if decide (key = "") then (Err ErrInvalidKey, m)
      else
        match m !! key with
        | None => (Err ErrCapsuleNotFound, m)
        | Some capsule =>
            (Ok (MkMetadata (UnlockTime capsule) (CreatedAt capsule)
                   (Before now (UnlockTime capsule))), m)
        end
  end.

(** [Delay]: [now] is the [time.Now()] the new unlock time is added to. *)
Definition Delay (ctx : Ctx) (now : Time) (key : string) (delay : Duration)
    (m : gmap string (Capsule T)) : GoError * gmap string (Capsule T) :=
  match ctx with
  | Some e => (Some (ErrContext e), m)
  | None =>
      if decide (key = "") then (Some ErrInvalidKey, m)
      else
        match m !! key with
        | None => (Some ErrCapsuleNotFound, m)
        | Some capsule =>
            let capsule' := MkCapsule (Value capsule) (Add now delay)
                              (CreatedAt capsule) in
            (None, <[key := capsule']> m)
        end
  end.

(** [Delete] *)
Definition Delete (ctx : Ctx) (key : string) (m : gmap string (Capsule T)) : GoError * gmap string (Capsule T) :=
  match ctx with
  | Some e => (Some (ErrContext e), m)
  | None =>
      if decide (key = "") then (Some ErrInvalidKey, m)
      else
        match m !! key with
        | None => (Some ErrCapsuleNotFound, m)
        | Some _ => (None, delete key m)
        end
  end.

(** [Exists] *)
Definition Exists (ctx : Ctx) (key : string) (m : gmap string (Capsule T)) : bool * gmap string (Capsule T) :=
  match ctx with
  | Some _ => (false, m)
  | None =>
      if decide (key = "") then (false, m)
      else
        match m !! key with
        | Some _ => (true, m)
        | None => (false, m)
        end
  end.

End Memory.
End Memory.

(** [New[T]()]: a store with an empty map. *)
Definition New {T : Type} : gmap string (Capsule T) := ∅.

(** ** PersistentTimeCapsule (storage.go) *)

(** A byte slice. *)
Definition bytes := list Byte.byte.

(** [Codec[T]] *)
Record Codec (T : Type) := MkCodec {
  Encode : T -> Result bytes;
  Decode : bytes -> Result T
}.
Arguments MkCodec {T} Encode Decode.
Arguments Encode {T} c v.
Arguments Decode {T} c data.

(** [Storage]: a backend over a state [S].  Each method receives the
    context and, where a backend may read the clock, the instant of the
    call; every method returns the backend state it leaves.  [Close] is
    not called by [PersistentTimeCapsule] and is left out. *)
Record Storage (S : Type) := MkStorage {
  SStore : Ctx -> Time -> string -> bytes -> Time -> S -> GoError * S;
  SOpen : Ctx -> Time -> string -> S -> Result bytes * S;
  SPeek : Ctx -> Time -> string -> S -> Result Metadata * S;
  SDelete : Ctx -> string -> S -> GoError * S;
  SExists : Ctx -> string -> S -> bool * S
}.
Arguments MkStorage {S} SStore SOpen SPeek SDelete SExists.
Arguments SStore {S} s ctx now key value unlockTime st.
Arguments SOpen {S} s ctx now key st.
Arguments SPeek {S} s ctx now key st.
Arguments SDelete {S} s ctx key st.
Arguments SExists {S} s ctx key st.

Module Persistent.
Section Persistent.
Context {T S : Type} (codec : Codec T) (storage : Storage S).

(** [Store]: [now] is the instant of the backend call. *)
Definition Store (ctx : Ctx) (now : Time) (key : string) (value : T)
    (unlockTime : Time) (st : S) : GoError * S :=
  match ctx with
  | Some e => (Some (ErrContext e), st)
  | None =>
      if decide (key = "") then (Some ErrInvalidKey, st)
      else
        match Encode codec value with
        | Err e => (Some e, st)
        | Ok data => SStore storage ctx now key data unlockTime st
        end
  end.

(** [Open] *)
Definition Open (ctx : Ctx) (now : Time) (key : string) (st : S)
    : Result T * S :=
  match ctx with
  | Some e => (Err (ErrContext e), st)
  | None =>
      if decide (key = "") then (Err ErrInvalidKey, st)
      else
        match SOpen storage ctx now key st with
        | (Err e, st1) => (Err e, st1)
        | (Ok data, st1) => (Decode codec data, st1)
        end
  end.

(** [Peek] *)
Definition Peek (ctx : Ctx) (now : Time) (key : string) (st : S)
    : Result Metadata * S :=
  match ctx with
  | Some e => (Err (ErrContext e), st)
  | None =>
      if decide (key = "") then (Err ErrInvalidKey, st)
      else SPeek storage ctx now key st
  end.

(** [Delay]: a peek at [tPeek], [time.Now()] read as [tNow], an open at
    [tOpen] and a re-store at [tStore]. *)
Definition Delay (ctx : Ctx) (tPeek tNow tOpen tStore : Time) (key : string)
    (delay : Duration) (st : S) : GoError * S :=
  match ctx with
  | Some e => (Some (ErrContext e), st)
  | None =>
      if decide (key = "") then (Some ErrInvalidKey, st)
      else
        match SPeek storage ctx tPeek key st with
        | (Err e, st1) => (Some e, st1)
        | (Ok _, st1) =>
            let newUnlockTime := Add tNow delay in
            match SOpen storage ctx tOpen key st1 with
            | (Err e, st2) => (Some e, st2)
            | (Ok data, st2) =>
                SStore storage ctx tStore key data newUnlockTime st2
            end
        end
  end.

(** [Delete] *)
Definition Delete (ctx : Ctx) (key : string) (st : S) : GoError * S :=
  match ctx with
  | Some e => (Some (ErrContext e), st)
  | None =>
      if decide (key = "") then (Some ErrInvalidKey, st)
      else SDelete storage ctx key st
  end.

(** [Exists] *)
Definition Exists (ctx : Ctx) (key : string) (st : S) : bool * S :=
  match ctx with
  | Some _ => (false, st)
  | None =>
      if decide (key = "") then (false, st)
      else SExists storage ctx key st
  end.

End Persistent.
End Persistent.

(** Modelled from the spec: a [Storage] backend.  The repository declares
    the [Storage] interface but implements no backend; section 4.3 of the
    spec says a backend carries the capsule store contract of section 4.1
    over byte payloads, and the interface's comment says its [Open]
    "retrieves a value if it's unlocked".  This backend is that contract:
    the in-memory store of timecapsule.go at [T := bytes]. *)
Definition MemStorage : Storage (gmap string (Capsule bytes)) :=
  MkStorage
    (fun ctx now key value unlockTime m =>
       Memory.Store ctx now key value unlockTime m)
    (fun ctx now key m => Memory.Open ctx now key m)
    (fun ctx now key m => Memory.Peek ctx now key m)
    (fun ctx key m => Memory.Delete ctx key m)
    (fun ctx key m => Memory.Exists ctx key m).

(** ** WaitForUnlock (both variants)

    [MemoryTimeCapsule.WaitForUnlock] and [PersistentTimeCapsule.WaitForUnlock]
    have the same body; they differ only in the [tc.Peek] and [tc.Open]
    they call.  The body is a small interaction tree: each node is one
    call the Go code makes ([ctx.Err()], [tc.Peek], [tc.Open],
    [time.Until]'s [time.Now()], the [select] racing the timer against
    [ctx.Done()]) and its continuation takes the answer. *)

(** The way the [select] ends. *)
Inductive Outcome :=
  | CtxDone (e : CtxErr)   (** [<-ctx.Done()], then [ctx.Err()] *)
  | TimerFired.            (** [<-timer.C] *)

Inductive Wait (A : Type) :=
  | WDone (r : Result A)
  | WCtx (k : Ctx -> Wait A)
  | WPeek (key : string) (k : Result Metadata -> Wait A)
  | WOpen (key : string) (k : Result A -> Wait A)
  | WNow (k : Time -> Wait A)
  | WSelect (d : Duration) (k : Outcome -> Wait A).
Arguments WDone {A} r.
Arguments WCtx {A} k.
Arguments WPeek {A} key k.
Arguments WOpen {A} key k.
Arguments WNow {A} k.
Arguments WSelect {A} d k.

(** [WaitForUnlock]; the timer of [time.NewTimer(time.Until(u))] runs for
    [u - now]. *)
Definition WaitForUnlock {A : Type} (key : string) : Wait A :=
  WCtx (fun c =>
    match c with
    | Some e => WDone (Err (ErrContext e))
    | None =>
        WPeek key (fun r =>
          match r with
          | Err e => WDone (Err e)
          | Ok metadata =>
              if negb (IsLocked metadata) then WOpen key WDone
              else
                WNow (fun now =>
                  WSelect (MUnlockTime metadata - now)%Z (fun o =>
                    match o with
                    | CtxDone e => WDone (Err (ErrContext e))
                    | TimerFired => WOpen key WDone
                    end))
          end)
    end).

(** Running the tree against a store shared with other callers: a
    [tc.Peek] or [tc.Open] is the variant's own [peek] or [open] on the
    state [s] the store has when the call is made, which other callers
    may have changed in between; the context, the clock and the race are
    answered by the environment. *)
Section Run.
Context {A Sigma : Type}.
Context (peek : Ctx -> Time -> string -> Sigma -> Result Metadata).
Context (open : Ctx -> Time -> string -> Sigma -> Result A).

Inductive Event :=
  | EvCtx (c : Ctx)
  | EvPeek (c : Ctx) (t : Time) (s : Sigma) (r : Result Metadata)
  | EvOpen (c : Ctx) (t : Time) (s : Sigma) (r : Result A)
  | EvNow (t : Time)
  | EvWait (d : Duration) (o : Outcome).

Inductive runs : Wait A -> list Event -> Result A -> Prop :=
  | runs_done r :
      runs (WDone r) [] r
  | runs_ctx k c evs r :
      runs (k c) evs r -> runs (WCtx k) (EvCtx c :: evs) r
  | runs_peek key k c t s evs r :
      runs (k (peek c t key s)) evs r ->
      runs (WPeek key k) (EvPeek c t s (peek c t key s) :: evs) r
  | runs_open key k c t s evs r :
      runs (k (open c t key s)) evs r ->
      runs (WOpen key k) (EvOpen c t s (open c t key s) :: evs) r
  | runs_now k t evs r :
      runs (k t) evs r -> runs (WNow k) (EvNow t :: evs) r
  | runs_select d k o evs r :
      runs (k o) evs r -> runs (WSelect d k) (EvWait d o :: evs) r.

(** The number of waits in a run. *)
Fixpoint waits (evs : list Event) : nat :=
  match evs with
  | [] => 0
  | EvWait _ _ :: evs' => S (waits evs')
  | _ :: evs' => waits evs'
  end.

End Run.
Arguments Event : clear implicits.

(** The two variants' [tc.Peek] and [tc.Open] as seen by [WaitForUnlock]:
    the in-memory store's, on the map at the time of the call. *)
Definition mem_peek {T : Type} (ctx : Ctx) (now : Time) (key : string)
    (m : gmap string (Capsule T)) : Result Metadata :=
  fst (Memory.Peek ctx now key m).
Definition mem_open {T : Type} (ctx : Ctx) (now : Time) (key : string)
    (m : gmap string (Capsule T)) : Result T :=
  fst (Memory.Open ctx now key m).

(** ** Proof automation *)

Ltac go_cases :=
  repeat first
    [ progress simpl in *
    | progress simplify_map_eq
    | case_decide; subst
    | match goal with
      | |- context [match ?m !! ?k with _ => _ end] => destruct (m !! k) eqn:?
      | |- context [Before ?a ?b] => unfold Before; destruct (Z.ltb_spec a b)
      end ];
  repeat split; try done; try congruence; try lia.

Ltac run_step :=
  match goal with H : runs _ _ _ _ _ |- _ => inversion H; subst; clear H end.

(** ** Concrete runs *)

Module Examples.
Local Open Scope Z_scope.

Definition m_hello : gmap string (Capsule string) :=
  snd (Memory.Store None 0 "x" "hello" 100 ∅).

(** Scenario 2 of the spec: locked at 0, open at 150. *)
Example open_locked : fst (Memory.Open None 0 "x" m_hello) = Err ErrCapsuleLocked.
Proof. reflexivity. Qed.
Example open_unlocked : fst (Memory.Open None 150 "x" m_hello) = Ok "hello".
Proof. reflexivity. Qed.

(** Scenario 5: a delay moves the unlock time from 100 to 10 + 7200. *)
Example delay_peek :
  fst (Memory.Peek None 20 "x" (snd (Memory.Delay None 10 "x" 7200 m_hello)))
  = Ok (MkMetadata 7210 0 true).
Proof. reflexivity. Qed.

(** Scenario 6 *)
Example delete_missing :
  fst (Memory.Delete None "missing" m_hello) = Some ErrCapsuleNotFound.
Proof. reflexivity. Qed.

End Examples.

(** ** Claims about the in-memory store *)

(** C1: after [Store(k, v, u)] with a live context and a non-empty key,
    [Store] reports no error and an [Open(k)] at any [now >= u] returns
    exactly [v]; on the empty key [Open] fails with [InvalidKey], on an
    absent key with [CapsuleNotFound], on a record with [now < u] with
    [CapsuleLocked]; [Open] never changes the map. *)
Theorem open_after_store_roundtrip {T : Type} :
  (forall (k : string) (v : T) (u t0 now : Time) (m : gmap string (Capsule T)),
     k <> "" -> (u <= now)%Z ->
     let m' := snd (Memory.Store None t0 k v u m) in
     fst (Memory.Store None t0 k v u m) = None /\
     Memory.Open None now k m' = (Ok v, m')) /\
  (forall (now : Time) (m : gmap string (Capsule T)),
     fst (Memory.Open None now "" m) = Err ErrInvalidKey) /\
  (forall (now : Time) (k : string) (m : gmap string (Capsule T)),
     k <> "" -> m !! k = None ->
     fst (Memory.Open None now k m) = Err ErrCapsuleNotFound) /\
  (forall (now : Time) (k : string) (m : gmap string (Capsule T)) (c : Capsule T),
     k <> "" -> m !! k = Some c -> (now < UnlockTime c)%Z ->
     fst (Memory.Open None now k m) = Err ErrCapsuleLocked) /\
  (forall (ctx : Ctx) (now : Time) (k : string) (m : gmap string (Capsule T)),
     snd (Memory.Open ctx now k m) = m).
Proof.
  split; [|split; [|split; [|split]]].
  - intros k v u t0 now m Hk Hu; unfold Memory.Store, Memory.Open; go_cases.
  - intros now m; reflexivity.
  - intros now k m Hk Hm; unfold Memory.Open; go_cases.
  - intros now k m c Hk Hm Hlt; unfold Memory.Open; go_cases.
  - intros [e|] now k m; unfold Memory.Open; go_cases.
Qed.

(** C2: [Delay(k, d)] on an existing record under a non-empty key sets the
    unlock time to [now + d] for the [now] of the call, whatever the old
    unlock time was; two successive delays leave the second call's
    [now + d], not a sum with the first deadline. *)
Theorem delay_resets_from_now {T : Type} (k : string) (m : gmap string (Capsule T))
    (c : Capsule T) :
  k <> "" -> m !! k = Some c ->
  (forall (now : Time) (d : Duration),
     Memory.Delay None now k d m
     = (None, <[k := MkCapsule (Value c) (now + d)%Z (CreatedAt c)]> m)) /\
  (forall (t1 t2 : Time) (d1 d2 : Duration),
     snd (Memory.Delay None t2 k d2 (snd (Memory.Delay None t1 k d1 m))) !! k
     = Some (MkCapsule (Value c) (t2 + d2)%Z (CreatedAt c))).
Proof.
  intros Hk Hm; split.
  - intros now d; unfold Memory.Delay, Add; go_cases.
  - intros t1 t2 d1 d2; unfold Memory.Delay, Add; go_cases.
Qed.

(** C4: [Store] is an unconditional upsert: two stores under the same
    non-empty key leave the map with the single record of the second
    call, its value, its unlock time and its clock reading as creation
    time, and every other key as it was. *)
Theorem store_is_upsert {T : Type} (k : string) (v1 v2 : T) (u1 u2 t1 t2 : Time)
    (m : gmap string (Capsule T)) :
  k <> "" ->
  let r1 := Memory.Store None t1 k v1 u1 m in
  let r2 := Memory.Store None t2 k v2 u2 (snd r1) in
  fst r1 = None /\ fst r2 = None /\
  snd r2 = <[k := MkCapsule v2 u2 t2]> m.
Proof.
  intros Hk; unfold Memory.Store; simpl; case_decide; [congruence|].
  simpl; split; [done|split; [done|]].
  by rewrite insert_insert_eq.
Qed.

(** C6: [Peek(k)] on a record with unlock time [u] and creation time [c]
    returns [u], [c] and [isLocked = (now < u)] for the [now] of the
    call; it fails with [InvalidKey] on the empty key, with
    [CapsuleNotFound] on an absent key, never with [CapsuleLocked], and
    its result does not depend on the stored value. *)
Theorem peek_reports_metadata {T : Type} :
  (forall (now : Time) (k : string) (m : gmap string (Capsule T)) (c : Capsule T),
     k <> "" -> m !! k = Some c ->
     fst (Memory.Peek None now k m)
     = Ok (MkMetadata (UnlockTime c) (CreatedAt c)
             (bool_decide (now < UnlockTime c)%Z))) /\
  (forall (now : Time) (m : gmap string (Capsule T)),
     fst (Memory.Peek None now "" m) = Err ErrInvalidKey) /\
  (forall (now : Time) (k : string) (m : gmap string (Capsule T)),
     k <> "" -> m !! k = None ->
     fst (Memory.Peek None now k m) = Err ErrCapsuleNotFound) /\
  (forall (ctx : Ctx) (now : Time) (k : string) (m : gmap string (Capsule T)),
     fst (Memory.Peek ctx now k m) <> Err ErrCapsuleLocked) /\
  (forall (ctx : Ctx) (now : Time) (k : string) (m : gmap string (Capsule T))
          (c1 c2 : Capsule T),
     UnlockTime c1 = UnlockTime c2 -> CreatedAt c1 = CreatedAt c2 ->
     fst (Memory.Peek ctx now k (<[k := c1]> m))
     = fst (Memory.Peek ctx now k (<[k := c2]> m))).
Proof.
  split; [|split; [|split; [|split]]].
  - intros now k m c Hk Hm; unfold Memory.Peek; go_cases;
      case_bool_decide; congruence || lia.
  - intros now m; reflexivity.
  - intros now k m Hk Hm; unfold Memory.Peek; go_cases.
  - intros [e|] now k m; unfold Memory.Peek; go_cases.
  - intros [e|] now k m c1 c2 Hu Hc; unfold Memory.Peek; [done|].
    case_decide; [done|].
    rewrite !lookup_insert_eq; simpl. by rewrite Hu, Hc.
Qed.

(** ** Claims about WaitForUnlock *)

(** C3: every run of [WaitForUnlock(k)], against either variant's [Peek]
    and [Open] and whatever other callers do to the store meanwhile, is one
    of five: the context is already cancelled and its error is returned;
    [Peek] fails and its error is returned; [Peek] reports the capsule
    unlocked and one [Open] is returned; or one wait of [unlockTime - now]
    for the unlock time [Peek] reported, ended by the context (its error)
    or by the timer (one [Open], returned as it is).  No run waits twice. *)
Theorem wait_for_unlock_single_attempt {A Sigma : Type}
    (peek : Ctx -> Time -> string -> Sigma -> Result Metadata)
    (open : Ctx -> Time -> string -> Sigma -> Result A)
    (key : string) (evs : list (Event A Sigma)) (r : Result A) :
  runs peek open (WaitForUnlock key) evs r ->
  waits evs <= 1 /\
  ((exists e, evs = [EvCtx (Some e)] /\ r = Err (ErrContext e)) \/
   (exists c t s e, peek c t key s = Err e /\
      evs = [EvCtx None; EvPeek c t s (Err e)] /\ r = Err e) \/
   (exists c t s md c' t' s', peek c t key s = Ok md /\ IsLocked md = false /\
      evs = [EvCtx None; EvPeek c t s (Ok md); EvOpen c' t' s' r] /\
      r = open c' t' key s') \/
   (exists c t s md now e, peek c t key s = Ok md /\ IsLocked md = true /\
      evs = [EvCtx None; EvPeek c t s (Ok md); EvNow now;
             EvWait (MUnlockTime md - now)%Z (CtxDone e)] /\
      r = Err (ErrContext e)) \/
   (exists c t s md now c' t' s', peek c t key s = Ok md /\ IsLocked md = true /\
      evs = [EvCtx None; EvPeek c t s (Ok md); EvNow now;
             EvWait (MUnlockTime md - now)%Z TimerFired; EvOpen c' t' s' r] /\
      r = open c' t' key s')).
Proof.
  unfold WaitForUnlock; intros H.
  run_step. destruct c as [e|].
  - run_step. simpl; split; [lia|]. left; eauto.
  - run_step. destruct (peek c t key s) as [md|e] eqn:Hp.
    + destruct (IsLocked md) eqn:Hl; simpl in *.
      * run_step. run_step. destruct o as [e|].
        -- run_step. simpl; split; [lia|]. do 3 right; left. eauto 10.
        -- run_step. run_step. simpl; split; [lia|]. do 4 right. eauto 20.
      * run_step. run_step. simpl; split; [lia|]. do 2 right; left. eauto 20.
    + simpl in *. run_step. simpl; split; [lia|]. right; left. eauto 10.
Qed.

(** ** Claims about Delay across both variants *)

(** The frame of [Delay] in both variants: a successful [Delay(k, d)] of
    the in-memory store replaces the record under [k] by one with the
    same value and creation time and unlock time [now + d], leaving every
    other key as it was.  A successful [Delay] of the backend-delegating
    store over the byte backend re-stores the same bytes under [k] with
    unlock time [now + d], leaving every other key as it was, but the
    creation time of the new record is the clock reading of the backend's
    re-store. *)
Theorem delay_changes_only_unlock_time {T : Type} :
  (forall (ctx : Ctx) (now : Time) (k : string) (d : Duration)
          (m m' : gmap string (Capsule T)),
     Memory.Delay ctx now k d m = (None, m') ->
     exists c, m !! k = Some c /\
       m' = <[k := MkCapsule (Value c) (Add now d) (CreatedAt c)]> m) /\
  (forall (ctx : Ctx) (tPeek tNow tOpen tStore : Time) (k : string) (d : Duration)
          (m m' : gmap string (Capsule bytes)),
     Persistent.Delay MemStorage ctx tPeek tNow tOpen tStore k d m = (None, m') ->
     exists c, m !! k = Some c /\
       m' = <[k := MkCapsule (Value c) (Add tNow d) tStore]> m).
Proof.
  split.
  - intros [e|] now k d m m' H; unfold Memory.Delay in H; [congruence|].
    case_decide; [congruence|].
    destruct (m !! k) as [c|] eqn:Hm; [|congruence].
    injection H as <-. eauto.
  - intros [e|] tPeek tNow tOpen tStore k d m m' H;
      unfold Persistent.Delay in H; [congruence|].
    case_decide; [congruence|]. simpl in H.
    unfold Memory.Peek, Memory.Open, Memory.Store in H.
    case_decide; [congruence|].
    destruct (m !! k) as [c|] eqn:Hm; rewrite ?Hm in H; simpl in H; [|congruence].
    destruct (Before tOpen (UnlockTime c)); [congruence|].
    injection H as <-. eauto.
Qed.

(** C5: the backend-delegating [Delay] does not preserve [createdAt]: it
    re-stores the record through the backend's [store], which stamps a
    new creation time.  Delaying an unlocked record created at 0 succeeds
    and leaves a record created at 7, the instant of the re-store, where
    the in-memory [Delay] keeps the creation time. *)
Lemma persistent_delay_resets_created_at :
  let m0 : gmap string (Capsule bytes) := {["k" := MkCapsule [Byte.x00] 0%Z 0%Z]} in
  let r := Persistent.Delay MemStorage None 5%Z 5%Z 5%Z 7%Z "k" 10%Z m0 in
  fst r = None /\ ~ (forall c, snd r !! "k" = Some c -> CreatedAt c = 0%Z).
Proof.
  vm_compute. split; [reflexivity|].
  intros H. specialize (H _ eq_refl). discriminate.
Qed.

(** C7: the backend-delegating [Delay] reads the current bytes with the
    backend's [Open], which refuses a locked capsule: delaying a capsule
    that is still locked fails with [CapsuleLocked] and changes nothing,
    where the in-memory [Delay] succeeds on the same map. *)
Lemma persistent_delay_of_locked_capsule :
  let m0 : gmap string (Capsule bytes) :=
    snd (Memory.Store None 0%Z "k" [Byte.x00] 100%Z ∅) in
  fst (Memory.Delay None 10%Z "k" 3600%Z m0) = None /\
  Persistent.Delay MemStorage None 10%Z 10%Z 10%Z 10%Z "k" 3600%Z m0
  = (Some ErrCapsuleLocked, m0).
Proof. vm_compute. split; reflexivity. Qed.

(** ** Claims about cancellation and Exists *)

(** C8: under a context already cancelled at entry, every operation of
    both variants returns the context's error ([false] for [Exists]) and
    leaves the map, or the backend state, as it was; [WaitForUnlock]
    returns the error without calling [Peek] or [Open]. *)
Theorem cancelled_context_fails_fast {T S : Type} :
  (forall (e : CtxErr) (now : Time) (k : string) (v : T) (u : Time)
          (m : gmap string (Capsule T)),
     Memory.Store (Some e) now k v u m = (Some (ErrContext e), m)) /\
  (forall (e : CtxErr) (now : Time) (k : string) (m : gmap string (Capsule T)),
     Memory.Open (Some e) now k m = (Err (ErrContext e), m) /\
     Memory.Peek (Some e) now k m = (Err (ErrContext e), m)) /\
  (forall (e : CtxErr) (now : Time) (k : string) (d : Duration)
          (m : gmap string (Capsule T)),
     Memory.Delay (Some e) now k d m = (Some (ErrContext e), m) /\
     Memory.Delete (Some e) k m = (Some (ErrContext e), m) /\
     Memory.Exists (Some e) k m = (false, m)) /\
  (forall (codec : Codec T) (storage : Storage S) (e : CtxErr)
          (tPeek tNow tOpen tStore : Time) (k : string) (v : T) (u : Time)
          (d : Duration) (st : S),
     Persistent.Store codec storage (Some e) tStore k v u st
       = (Some (ErrContext e), st) /\
     Persistent.Open codec storage (Some e) tOpen k st
       = (Err (ErrContext e), st) /\
     Persistent.Peek storage (Some e) tPeek k st = (Err (ErrContext e), st) /\
     Persistent.Delay storage (Some e) tPeek tNow tOpen tStore k d st
       = (Some (ErrContext e), st) /\
     Persistent.Delete storage (Some e) k st = (Some (ErrContext e), st) /\
     Persistent.Exists storage (Some e) k st = (false, st)) /\
  (forall (Sigma : Type) (peek : Ctx -> Time -> string -> Sigma -> Result Metadata)
          (open : Ctx -> Time -> string -> Sigma -> Result T)
          (e : CtxErr) (k : string) (evs : list (Event T Sigma)) (r : Result T),
     runs peek open (WaitForUnlock k) (EvCtx (Some e) :: evs) r ->
     evs = [] /\ r = Err (ErrContext e)).
Proof.
  split; [|split; [|split; [|split]]]; try (intros; repeat split; done).
  intros Sigma peek open e k evs r H.
  inversion H; subst. match goal with H' : runs _ _ _ _ _ |- _ => inversion H' end.
  done.
Qed.

(** C9: [Exists(k)] returns a bare boolean, [true] exactly when the
    context is live, [k] is not empty and a record is present under [k];
    the clock is not consulted, so lock state plays no part.  The same
    holds for the backend-delegating store over the byte backend. *)
Theorem exists_iff_present {T : Type} :
  (forall (ctx : Ctx) (k : string) (m : gmap string (Capsule T)),
     fst (Memory.Exists ctx k m) = true <->
     ctx = None /\ k <> "" /\ is_Some (m !! k)) /\
  (forall (ctx : Ctx) (k : string) (m : gmap string (Capsule bytes)),
     fst (Persistent.Exists MemStorage ctx k m) = true <->
     ctx = None /\ k <> "" /\ is_Some (m !! k)).
Proof.
  split; intros [e|] k m; unfold Persistent.Exists, Memory.Exists; simpl;
    repeat case_decide; try destruct (m !! k) eqn:?; simpl;
    split; intros; destruct_and?; subst; try done;
    match goal with H : is_Some None |- _ => by apply is_Some_None in H end.
Qed.

(** C10: the cancelled-context check comes before the key check: under a
    cancelled context, every operation of both variants given the empty
    key returns the context's error ([false] for [Exists]), not
    [InvalidKey]. *)
Theorem cancellation_before_key_check {T S : Type} (e : CtxErr) :
  (forall (now u : Time) (d : Duration) (v : T) (m : gmap string (Capsule T)),
     fst (Memory.Store (Some e) now "" v u m) = Some (ErrContext e) /\
     fst (Memory.Open (Some e) now "" m) = Err (ErrContext e) /\
     fst (Memory.Peek (Some e) now "" m) = Err (ErrContext e) /\
     fst (Memory.Delay (Some e) now "" d m) = Some (ErrContext e) /\
     fst (Memory.Delete (Some e) "" m) = Some (ErrContext e) /\
     fst (Memory.Exists (Some e) "" m) = false) /\
  (forall (codec : Codec T) (storage : Storage S)
          (tPeek tNow tOpen tStore u : Time) (d : Duration) (v : T) (st : S),
     fst (Persistent.Store codec storage (Some e) tStore "" v u st)
       = Some (ErrContext e) /\
     fst (Persistent.Open codec storage (Some e) tOpen "" st)
       = Err (ErrContext e) /\
     fst (Persistent.Peek storage (Some e) tPeek "" st) = Err (ErrContext e) /\
     fst (Persistent.Delay storage (Some e) tPeek tNow tOpen tStore "" d st)
       = Some (ErrContext e) /\
     fst (Persistent.Delete storage (Some e) "" st) = Some (ErrContext e) /\
     fst (Persistent.Exists storage (Some e) "" st) = false) /\
  (forall (Sigma : Type) (peek : Ctx -> Time -> string -> Sigma -> Result Metadata)
          (open : Ctx -> Time -> string -> Sigma -> Result T)
          (evs : list (Event T Sigma)) (r : Result T),
     runs peek open (WaitForUnlock "") (EvCtx (Some e) :: evs) r ->
     r = Err (ErrContext e)).
Proof.
  split; [|split]; try (intros; repeat split; done).
  intros Sigma peek open evs r H.
  inversion H; subst. match goal with H' : runs _ _ _ _ _ |- _ => inversion H' end.
  done.
Qed.

(** ** Witnesses: the hypotheses of the claims hold on concrete inputs *)

Module Witnesses.
Local Open Scope Z_scope.

Definition m_x : gmap string (Capsule string) := {["x" := MkCapsule "hello" 100 0]}.

Lemma delay_resets_from_now_witness :
  ("x" <> "" /\ m_x !! "x" = Some (MkCapsule "hello" 100 0)) /\
  Memory.Delay None 10 "x" 7200 m_x
  = (None, <[ "x" := MkCapsule "hello" (10 + 7200) 0 ]> m_x).
Proof.
  assert (Hk : "x" <> "") by discriminate.
  assert (Hm : m_x !! "x" = Some (MkCapsule "hello" 100 0)) by reflexivity.
  split; [split; assumption|].
  exact (proj1 (delay_resets_from_now "x" m_x _ Hk Hm) 10 7200).
Defined.

Lemma store_is_upsert_witness :
  "x" <> "" /\
  snd (Memory.Store None 4 "x" "b" 2 (snd (Memory.Store None 3 "x" "a" 1 m_x)))
  = <[ "x" := MkCapsule "b" 2 4 ]> m_x.
Proof.
  assert (Hk : "x" <> "") by discriminate.
  split; [assumption|].
  exact (proj2 (proj2 (store_is_upsert "x" "a" "b" 1 2 3 4 m_x Hk))).
Defined.

Definition m_42 : gmap string (Capsule nat) :=
  snd (Memory.Store None 0 "x" 42%nat 50 ∅).

(** Scenario 3 of the spec: the capsule is locked at 0, the timer of 50
    fires, and the [Open] at 50 returns 42. *)
Lemma wait_for_unlock_single_attempt_witness :
  exists evs, runs mem_peek mem_open (WaitForUnlock "x") evs (Ok 42%nat) /\
    (waits evs <= 1)%nat.
Proof.
  eexists.
  assert (H : runs mem_peek mem_open (WaitForUnlock "x")
    [EvCtx None; EvPeek None 0 m_42 (mem_peek None 0 "x" m_42); EvNow 0;
     EvWait 50 TimerFired; EvOpen None 50 m_42 (mem_open None 50 "x" m_42)]
    (Ok 42%nat)).
  { apply runs_ctx. simpl.
    apply (runs_peek mem_peek mem_open "x" _ None 0 m_42). vm_compute.
    apply (runs_now _ _ _ 0). vm_compute.
    apply (runs_select _ _ _ _ TimerFired).
    apply (runs_open mem_peek mem_open "x" _ None 50 m_42). vm_compute.
    apply runs_done. }
  split; [exact H|].
  exact (proj1 (wait_for_unlock_single_attempt mem_peek mem_open "x" _ _ H)).
Defined.

End Witnesses.

(** ** Further properties of the in-memory store *)

Module MemoryFacts.

(** [Delete] of a present record under a non-empty key succeeds and
    removes exactly that key; afterwards [Exists] is false, [Open] and a
    second [Delete] fail with [CapsuleNotFound]. *)
Theorem delete_then_absent {T : Type} (k : string) (m : gmap string (Capsule T))
    (c : Capsule T) (now : Time) :
  k <> "" -> m !! k = Some c ->
  let m' := snd (Memory.Delete None k m) in
  fst (Memory.Delete None k m) = None /\ m' = delete k m /\
  fst (Memory.Exists None k m') = false /\
  fst (Memory.Open None now k m') = Err ErrCapsuleNotFound /\
  fst (Memory.Delete None k m') = Some ErrCapsuleNotFound.
Proof. intros Hk Hm; unfold Memory.Delete, Memory.Exists, Memory.Open; go_cases. Qed.

(** A mutation that fails ([Store], [Delay] or [Delete] returning an
    error) leaves the map exactly as it was. *)
Theorem failed_mutation_leaves_map {T : Type} :
  (forall (ctx : Ctx) (now : Time) (k : string) (v : T) (u : Time)
          (m : gmap string (Capsule T)) (e : Error),
     fst (Memory.Store ctx now k v u m) = Some e ->
     snd (Memory.Store ctx now k v u m) = m) /\
  (forall (ctx : Ctx) (now : Time) (k : string) (d : Duration)
          (m : gmap string (Capsule T)) (e : Error),
     fst (Memory.Delay ctx now k d m) = Some e ->
     snd (Memory.Delay ctx now k d m) = m) /\
  (forall (ctx : Ctx) (k : string) (m : gmap string (Capsule T)) (e : Error),
     fst (Memory.Delete ctx k m) = Some e -> snd (Memory.Delete ctx k m) = m).
Proof.
  split; [|split]; intros [ce|]; intros;
    unfold Memory.Store, Memory.Delay, Memory.Delete in *; go_cases.
Qed.

(** [Store] fails only with the context's error or, under a live context,
    with [InvalidKey] on the empty key: it never reports
    [CapsuleNotFound] or [CapsuleLocked]. *)
Theorem store_errors {T : Type} (ctx : Ctx) (now : Time) (k : string) (v : T)
    (u : Time) (m : gmap string (Capsule T)) (e : Error) :
  fst (Memory.Store ctx now k v u m) = Some e ->
  (exists ce, ctx = Some ce /\ e = ErrContext ce) \/
  (ctx = None /\ k = "" /\ e = ErrInvalidKey).
Proof.
  destruct ctx as [ce|]; unfold Memory.Store; simpl; intros H.
  - left; exists ce; split; congruence.
  - case_decide; simpl in H; [|congruence]. right; repeat split; congruence.
Qed.

(** Under a live context [Delay] and [Delete] return the same error
    result on every key, and both succeed exactly when [Exists] is true. *)
Theorem delay_delete_exists_agree {T : Type} (now : Time) (k : string)
    (d : Duration) (m : gmap string (Capsule T)) :
  fst (Memory.Delay None now k d m) = fst (Memory.Delete None k m) /\
  (fst (Memory.Delete None k m) = None <-> fst (Memory.Exists None k m) = true).
Proof. unfold Memory.Delay, Memory.Delete, Memory.Exists; go_cases. Qed.

(** [Open] and [Peek] at the same instant agree: [Open] returns a value
    exactly when [Peek] reports the record unlocked, [Open] fails with
    [CapsuleLocked] exactly when [Peek] reports it locked, and any other
    error is the same for both. *)
Theorem open_peek_agree {T : Type} (ctx : Ctx) (now : Time) (k : string)
    (m : gmap string (Capsule T)) :
  (forall v : T, fst (Memory.Open ctx now k m) = Ok v <->
     exists c, m !! k = Some c /\ Value c = v /\
       fst (Memory.Peek ctx now k m)
       = Ok (MkMetadata (UnlockTime c) (CreatedAt c) false)) /\
  (fst (Memory.Open ctx now k m) = Err ErrCapsuleLocked <->
     exists md, fst (Memory.Peek ctx now k m) = Ok md /\ IsLocked md = true) /\
  (forall e, e <> ErrCapsuleLocked ->
     fst (Memory.Open ctx now k m) = Err e <-> fst (Memory.Peek ctx now k m) = Err e).
Proof.
  unfold Memory.Open, Memory.Peek; destruct ctx as [ce|]; simpl;
    [|case_decide; simpl; [|destruct (m !! k) as [c|] eqn:Hm; simpl;
                            [destruct (Before now (UnlockTime c)) eqn:Hb|]]];
    split_and!; intros; naive_solver.
Qed.

(** A [Store] followed by a [Peek] of the same non-empty key reports the
    stored unlock time, the clock reading of the [Store] as creation time,
    and [isLocked] as [now < unlockTime] for the [Peek]'s [now]. *)
Theorem store_then_peek {T : Type} (k : string) (v : T) (u t0 now : Time)
    (m : gmap string (Capsule T)) :
  k <> "" ->
  fst (Memory.Peek None now k (snd (Memory.Store None t0 k v u m)))
  = Ok (MkMetadata u t0 (bool_decide (now < u)%Z)).
Proof.
  intros Hk; unfold Memory.Store, Memory.Peek; go_cases;
    case_bool_decide; congruence || lia.
Qed.

(** [Store], [Delay] and [Delete] on a key leave the record of every
    other key as it was. *)
Theorem mutations_touch_only_their_key {T : Type} (ctx : Ctx) (now : Time)
    (k k' : string) (v : T) (u : Time) (d : Duration)
    (m : gmap string (Capsule T)) :
  k' <> k ->
  snd (Memory.Store ctx now k v u m) !! k' = m !! k' /\
  snd (Memory.Delay ctx now k d m) !! k' = m !! k' /\
  snd (Memory.Delete ctx k m) !! k' = m !! k'.
Proof.
  intros Hne; unfold Memory.Store, Memory.Delay, Memory.Delete;
    destruct ctx; go_cases.
Qed.

(** After [Delay(k, d)] at [now], an [Open] at [t] is refused exactly when
    [t < now + d]: a positive delay locks the capsule at the moment of the
    call, a zero or negative delay leaves it open at once. *)
Theorem delay_then_open {T : Type} (k : string) (m : gmap string (Capsule T))
    (c : Capsule T) (now t : Time) (d : Duration) :
  k <> "" -> m !! k = Some c ->
  fst (Memory.Open None t k (snd (Memory.Delay None now k d m)))
  = if bool_decide (t < now + d)%Z then Err ErrCapsuleLocked else Ok (Value c).
Proof.
  intros Hk Hm; unfold Memory.Delay, Memory.Open, Add; go_cases;
    case_bool_decide; congruence || lia.
Qed.

(** On the store [New()] returns, every operation on a non-empty key
    under a live context finds nothing: [Open], [Peek], [Delay] and
    [Delete] fail with [CapsuleNotFound] and [Exists] is false. *)
Theorem new_store_is_empty {T : Type} (now : Time) (k : string) (d : Duration) :
  k <> "" ->
  fst (Memory.Open None now k (@New T)) = Err ErrCapsuleNotFound /\
  fst (Memory.Peek None now k (@New T)) = Err ErrCapsuleNotFound /\
  fst (Memory.Delay None now k d (@New T)) = Some ErrCapsuleNotFound /\
  fst (Memory.Delete None k (@New T)) = Some ErrCapsuleNotFound /\
  fst (Memory.Exists None k (@New T)) = false.
Proof.
  intros Hk; unfold New, Memory.Open, Memory.Peek, Memory.Delay,
    Memory.Delete, Memory.Exists; go_cases.
Qed.

End MemoryFacts.

(** ** Further properties of the backend-delegating store and of
    WaitForUnlock *)

Module PersistentFacts.

(** Over the byte backend, a [Store] through a codec that decodes what it
    encodes, followed by an [Open] at an instant [now >= unlockTime],
    returns the stored value; the backend holds the encoded bytes with the
    unlock time and the [Store]'s clock reading. *)
Theorem persistent_store_open_roundtrip {T : Type} (codec : Codec T) (k : string)
    (v : T) (data : bytes) (u t0 now : Time) (m : gmap string (Capsule bytes)) :
  k <> "" -> Encode codec v = Ok data -> Decode codec data = Ok v ->
  (u <= now)%Z ->
  let m' := snd (Persistent.Store codec MemStorage None t0 k v u m) in
  m' = <[k := MkCapsule data u t0]> m /\
  fst (Persistent.Open codec MemStorage None now k m') = Ok v.
Proof.
  intros Hk Henc Hdec Hu.
  unfold Persistent.Store, Persistent.Open; rewrite Henc; simpl.
  unfold Memory.Store, Memory.Open; go_cases.
Qed.

(** Over the byte backend, [Peek], [Delete] and [Exists] of the
    backend-delegating store give exactly what the in-memory store gives
    on the same map: the delegating layer's own checks change nothing. *)
Theorem persistent_delegation_exact (ctx : Ctx) (now : Time) (k : string)
    (m : gmap string (Capsule bytes)) :
  Persistent.Peek MemStorage ctx now k m = Memory.Peek ctx now k m /\
  Persistent.Delete MemStorage ctx k m = Memory.Delete ctx k m /\
  Persistent.Exists MemStorage ctx k m = Memory.Exists ctx k m.
Proof.
  unfold Persistent.Peek, Persistent.Delete, Persistent.Exists;
    destruct ctx; simpl; [done|]; case_decide; simpl;
    unfold Memory.Peek, Memory.Delete, Memory.Exists; go_cases.
Qed.

(** Over the byte backend, the backend-delegating [Delay] under a live
    context succeeds exactly when the key is non-empty and its record is
    already unlocked at the instant of the backend [open]; when it fails,
    the map is left as it was. *)
Theorem persistent_delay_outcome (tPeek tNow tOpen tStore : Time) (k : string)
    (d : Duration) (m : gmap string (Capsule bytes)) :
  (fst (Persistent.Delay MemStorage None tPeek tNow tOpen tStore k d m) = None <->
   k <> "" /\ exists c, m !! k = Some c /\ (UnlockTime c <= tOpen)%Z) /\
  (forall e, fst (Persistent.Delay MemStorage None tPeek tNow tOpen tStore k d m)
             = Some e ->
   snd (Persistent.Delay MemStorage None tPeek tNow tOpen tStore k d m) = m).
Proof.
  unfold Persistent.Delay; case_decide; simpl; [naive_solver|].
  unfold Memory.Peek, Memory.Open, Memory.Store; simpl.
  repeat (case_decide; [congruence|]); simpl.
  destruct (m !! k) as [c|] eqn:Hm; rewrite ?Hm; simpl.
  - unfold Before; destruct (Z.ltb_spec tOpen (UnlockTime c)); simpl.
    + split; [split; [congruence|]|congruence].
      intros (_ & c' & Hc' & Hle). simplify_eq. lia.
    + split; [|congruence]. split; [eauto|done].
  - split; [split; [congruence|]|congruence].
    intros (_ & c' & Hc' & _). congruence.
Qed.

End PersistentFacts.

Module WaitFacts.

Ltac finish_open :=
  match goal with
  | H : mem_open ?c ?t ?k ?s = Ok ?v |- _ =>
      rewrite H; unfold mem_open, Memory.Open in H;
      destruct c; [discriminate|]; case_decide; [discriminate|]; simpl in H;
      let cap := fresh "cap" in
      destruct (s !! k) as [cap|] eqn:?; [|discriminate];
      unfold Before in H; destruct (Z.ltb_spec t (UnlockTime cap)); [discriminate|];
      injection H as <-; exists t, s, cap; simpl; repeat split; auto; lia
  end.

(** In the in-memory store, a value returned by [WaitForUnlock] always
    comes from its last step, an [Open] under a live context that found
    the record present and unlocked at that instant: [WaitForUnlock] never
    hands out the value of a locked or absent capsule. *)
Theorem wait_value_only_from_unlocked_open {T : Type} (k : string)
    (evs : list (Event T (gmap string (Capsule T)))) (v : T) :
  runs mem_peek mem_open (WaitForUnlock k) evs (Ok v) ->
  exists t s c, last evs = Some (EvOpen None t s (Ok v)) /\
    s !! k = Some c /\ (UnlockTime c <= t)%Z /\ Value c = v.
Proof.
  unfold WaitForUnlock; intros H.
  run_step. destruct c as [e|]; simpl in *; [run_step|].
  run_step. destruct (mem_peek c t k s) as [md|e] eqn:Hp; simpl in *; [|run_step].
  destruct (IsLocked md); simpl in *.
  - run_step. run_step. destruct o; simpl in *; [run_step|].
    run_step. run_step. finish_open.
  - run_step. run_step. finish_open.
Qed.

(** In the in-memory store, [WaitForUnlock] on the empty key never waits
    and fails with [InvalidKey] or a context error. *)
Theorem wait_empty_key {T : Type} (evs : list (Event T (gmap string (Capsule T))))
    (r : Result T) :
  runs mem_peek mem_open (WaitForUnlock "") evs r ->
  waits evs = 0 /\ (r = Err ErrInvalidKey \/ exists e, r = Err (ErrContext e)).
Proof.
  unfold WaitForUnlock; intros H.
  run_step. destruct c as [e|]; simpl in *; [run_step; eauto|].
  run_step. unfold mem_peek, Memory.Peek in *.
  destruct c as [e|]; simpl in *; run_step; simpl; eauto.
Qed.

End WaitFacts.

(** ** Witnesses for the further properties *)

Module FactWitnesses.
Local Open Scope Z_scope.

Definition m_ab : gmap string (Capsule string) :=
  {["a" := MkCapsule "one" 100 0; "b" := MkCapsule "two" 5 1]}.

(** A codec that passes bytes through. *)
Definition bytes_codec : Codec bytes := MkCodec Ok Ok.

Lemma delete_then_absent_witness :
  ("a" <> "" /\ m_ab !! "a" = Some (MkCapsule "one" 100 0)) /\
  fst (Memory.Delete None "a" m_ab) = None.
Proof.
  assert (Hk : "a" <> "") by discriminate.
  assert (Hm : m_ab !! "a" = Some (MkCapsule "one" 100 0)) by reflexivity.
  split; [split; assumption|].
  exact (proj1 (MemoryFacts.delete_then_absent "a" m_ab _ 0 Hk Hm)).
Defined.

Lemma store_errors_witness :
  fst (Memory.Store None 0 "" "v" 10 m_ab) = Some ErrInvalidKey /\
  ((exists ce, (None : Ctx) = Some ce /\ ErrInvalidKey = ErrContext ce) \/
   ((None : Ctx) = None /\ "" = "" /\ ErrInvalidKey = ErrInvalidKey)).
Proof.
  assert (H : fst (Memory.Store None 0 "" "v" 10 m_ab) = Some ErrInvalidKey)
    by reflexivity.
  split; [exact H|].
  exact (MemoryFacts.store_errors None 0 "" "v" 10 m_ab ErrInvalidKey H).
Defined.

Lemma store_then_peek_witness :
  "c" <> "" /\
  fst (Memory.Peek None 3 "c" (snd (Memory.Store None 2 "c" "three" 7 m_ab)))
  = Ok (MkMetadata 7 2 (bool_decide (3 < 7))).
Proof.
  assert (Hk : "c" <> "") by discriminate.
  split; [assumption|].
  exact (MemoryFacts.store_then_peek "c" "three" 7 2 3 m_ab Hk).
Defined.

Lemma mutations_touch_only_their_key_witness :
  "b" <> "a" /\
  snd (Memory.Store None 9 "a" "new" 50 m_ab) !! "b" = m_ab !! "b".
Proof.
  assert (Hne : "b" <> "a") by discriminate.
  split; [assumption|].
  exact (proj1 (MemoryFacts.mutations_touch_only_their_key None 9 "a" "b"
                  "new" 50 0 m_ab Hne)).
Defined.

Lemma delay_then_open_witness :
  ("b" <> "" /\ m_ab !! "b" = Some (MkCapsule "two" 5 1)) /\
  fst (Memory.Open None 20 "b" (snd (Memory.Delay None 20 "b" (-1) m_ab)))
  = if bool_decide (20 < 20 + -1) then Err ErrCapsuleLocked else Ok "two".
Proof.
  assert (Hk : "b" <> "") by discriminate.
  assert (Hm : m_ab !! "b" = Some (MkCapsule "two" 5 1)) by reflexivity.
  split; [split; assumption|].
  exact (MemoryFacts.delay_then_open "b" m_ab _ 20 20 (-1) Hk Hm).
Defined.

Lemma new_store_is_empty_witness :
  "k" <> "" /\ fst (Memory.Exists None "k" (@New nat)) = false.
Proof.
  assert (Hk : "k" <> "") by discriminate.
  split; [assumption|].
  exact (proj2 (proj2 (proj2 (proj2 (MemoryFacts.new_store_is_empty 0 "k" 0 Hk))))).
Defined.

Lemma persistent_store_open_roundtrip_witness :
  fst (Persistent.Open bytes_codec MemStorage None 10 "k"
         (snd (Persistent.Store bytes_codec MemStorage None 0 "k" [Byte.x2a] 5 ∅)))
  = Ok [Byte.x2a].
Proof.
  assert (Hk : "k" <> "") by discriminate.
  assert (He : Encode bytes_codec [Byte.x2a] = Ok [Byte.x2a]) by reflexivity.
  assert (Hd : Decode bytes_codec [Byte.x2a] = Ok [Byte.x2a]) by reflexivity.
  assert (Hu : 5 <= 10) by lia.
  exact (proj2 (PersistentFacts.persistent_store_open_roundtrip bytes_codec "k"
                  [Byte.x2a] [Byte.x2a] 5 0 10 ∅ Hk He Hd Hu)).
Defined.

(** An already unlocked capsule: [Peek] reports it open and the [Open]
    that follows returns its value without a wait. *)
Lemma wait_value_only_from_unlocked_open_witness :
  exists (t : Time) (s : gmap string (Capsule string)) (c : Capsule string),
    s !! "b" = Some c /\ (UnlockTime c <= t) /\ Value c = "two".
Proof.
  assert (H : runs mem_peek mem_open (WaitForUnlock "b")
    [EvCtx None; EvPeek None 10 m_ab (mem_peek None 10 "b" m_ab);
     EvOpen None 10 m_ab (mem_open None 10 "b" m_ab)]
    (Ok "two")).
  { apply runs_ctx. simpl.
    apply (runs_peek mem_peek mem_open "b" _ None 10 m_ab). vm_compute.
    apply (runs_open mem_peek mem_open "b" _ None 10 m_ab). vm_compute.
    apply runs_done. }
  destruct (WaitFacts.wait_value_only_from_unlocked_open "b" _ _ H)
    as (t & s & c & _ & Hs & Hle & Hv).
  exists t, s, c. split; [exact Hs|split; [exact Hle|exact Hv]].
Defined.

Lemma wait_empty_key_witness :
  exists r : Result string, runs mem_peek mem_open (WaitForUnlock "") 
    [EvCtx None; EvPeek None 0 m_ab (mem_peek None 0 "" m_ab)] r /\
    r = Err ErrInvalidKey.
Proof.
  assert (H : runs mem_peek mem_open (WaitForUnlock "")
    [EvCtx None; EvPeek None 0 m_ab (mem_peek None 0 "" m_ab)]
    (Err ErrInvalidKey)).
  { apply runs_ctx. simpl.
    apply (runs_peek mem_peek mem_open "" _ None 0 m_ab). vm_compute.
    apply runs_done. }
  exists (Err ErrInvalidKey). split; [exact H|].
  destruct (proj2 (WaitFacts.wait_empty_key _ _ H)) as [Hr|[e Hr]];
    [exact Hr|discriminate].
Defined.

End FactWitnesses.
